(** * Mortgage-calc-extended: amortization, bank import/export and the bank store

    A shallow embedding of the computational parts of the application:
    - [MemoizedBankCard]: the cached mortgage figures of a bank card
      (src/components/MemoizedBankCard/index.jsx);
    - [FileUtils]: export and import of bank collections as JSON and CSV
      (src/utils/file-utils.js);
    - [Banks]: the reducer of the bank store (redux/banks);
    - [BankCard]: the duplicate-name rule of the "add bank" form.

    Numbers.  A JavaScript number is modelled by [num]: an exact rational,
    [NaN], [PInf] or [NInf].  The special values behave as in IEEE 754
    (0/0 is NaN, x/0 is an infinity, NaN is absorbing); finite arithmetic is
    exact, so binary64 rounding, overflow, underflow and the sign of zero are
    outside the model.

    Text.  A string is a sequence of 8-bit characters.  CSV files are
    strings, and the CSV code is modelled character by character.  The text
    of a JSON file is represented by the value it denotes: the application
    only calls [JSON.stringify] and [JSON.parse], and parsing what was
    stringified gives the value back.

    Effects.  An exception is the left injection of a sum, a settled promise
    is [Resolved] or [Rejected]; logging is left out, a download is returned
    as a value. *)

From Stdlib Require Import ZArith QArith Qround Qpower.
From Stdlib Require Import String Ascii DecimalString List Bool Lia.
Import ListNotations.

Set Implicit Arguments.

(* ================================================================== *)
(** * Part I: definitions                                              *)
(* ================================================================== *)

(** ** JavaScript numbers *)

Module JSNumber.

Inductive num : Type :=
| Fin (q : Q)
| NaN
| PInf
| NInf.

Definition of_Z (z : Z) : num := Fin (inject_Z z).

(** Two numbers denote the same value: rationals are compared by [Qeq]. *)
Definition num_eq (x y : num) : Prop :=
  match x, y with
  | Fin a, Fin b => a == b
  | NaN, NaN => True
  | PInf, PInf => True
  | NInf, NInf => True
  | _, _ => False
  end.

Definition neg (x : num) : num :=
  match x with
  | Fin q => Fin (- q)
  | NaN => NaN
  | PInf => NInf
  | NInf => PInf
  end.

Definition add (x y : num) : num :=
  match x, y with
  | NaN, _ | _, NaN => NaN
  | Fin a, Fin b => Fin (a + b)
  | PInf, NInf | NInf, PInf => NaN
  | PInf, _ | _, PInf => PInf
  | NInf, _ | _, NInf => NInf
  end.

Definition sub (x y : num) : num := add x (neg y).

(** An infinity scaled by the sign of a finite factor. *)
Definition scale_inf (positive : bool) (q : Q) : num :=
  match Qnum q with
  | Z0 => NaN
  | Zpos _ => if positive then PInf else NInf
  | Zneg _ => if positive then NInf else PInf
  end.

Definition mul (x y : num) : num :=
  match x, y with
  | NaN, _ | _, NaN => NaN
  | Fin a, Fin b => Fin (a * b)
  | PInf, Fin b => scale_inf true b
  | NInf, Fin b => scale_inf false b
  | Fin a, PInf => scale_inf true a
  | Fin a, NInf => scale_inf false a
  | PInf, PInf | NInf, NInf => PInf
  | PInf, NInf | NInf, PInf => NInf
  end.

Definition div (x y : num) : num :=
  match x, y with
  | NaN, _ | _, NaN => NaN
  | Fin a, Fin b =>
      match Qnum b with
      | Z0 => scale_inf true a            (* x/0: an infinity, 0/0: NaN *)
      | _ => Fin (a / b)
      end
  | Fin _, (PInf | NInf) => Fin 0
  | PInf, Fin b => match Qnum b with Zneg _ => NInf | _ => PInf end
  | NInf, Fin b => match Qnum b with Zneg _ => PInf | _ => NInf end
  | (PInf | NInf), (PInf | NInf) => NaN
  end.

(** [Math.pow] at an integer exponent. *)
Definition Math_pow (x : num) (n : Z) : num :=
  match n with
  | Z0 => Fin 1
  | Zpos p =>
      match x with
      | Fin q => Fin (q ^ n)
      | NaN => NaN
      | PInf => PInf
      | NInf => if Z.even n then PInf else NInf
      end
  | Zneg p =>
      match x with
      | Fin q => match Qnum q with Z0 => PInf | _ => Fin (q ^ n) end
      | NaN => NaN
      | PInf | NInf => Fin 0
      end
  end.

(** [Math.round]: the nearest integer, halves rounded up. *)
Definition Math_round (x : num) : num :=
  match x with
  | Fin q => of_Z (Qfloor (q + (1 # 2))%Q)
  | _ => x
  end.

(** The global [isNaN] on a number. *)
Definition num_isNaN (x : num) : bool :=
  match x with NaN => true | _ => false end.

(** [x < y]; false as soon as one side is NaN. *)
Definition lt (x y : num) : bool :=
  match x, y with
  | NaN, _ | _, NaN => false
  | Fin a, Fin b => negb (Qle_bool b a)
  | NInf, NInf | PInf, _ => false
  | NInf, _ => true
  | Fin _, PInf => true
  | Fin _, NInf => false
  end.

(** [x <= y]; false as soon as one side is NaN. *)
Definition le (x y : num) : bool :=
  match x, y with
  | NaN, _ | _, NaN => false
  | Fin a, Fin b => Qle_bool a b
  | NInf, _ | _, PInf => true
  | PInf, _ | _, NInf => false
  end.



(** [true] when the number is falsy (0 or NaN). *)
Definition num_falsy (x : num) : bool :=
  match x with
  | Fin q => match Qnum q with Z0 => true | _ => false end
  | NaN => true
  | _ => false
  end.

End JSNumber.

Import JSNumber.

Declare Scope num_scope.
Delimit Scope num_scope with num.
Bind Scope num_scope with num.
Infix "+" := add : num_scope.
Infix "-" := sub : num_scope.
Infix "*" := mul : num_scope.
Infix "/" := div : num_scope.
Coercion of_Z : Z >-> num.

(** ** The bank card's cached figures
    src/components/MemoizedBankCard/index.jsx, [calculatedValues]. *)

Module MemoizedBankCard.

(** The [bank] prop as the calculation reads it.  The term is a whole number
    of years, so the exponent [LoanTerm * 12] is an integer. *)
Record BankProps : Type := {
  InterestRate : num;
  MaximumLoan : num;
  MinimumDownPayment : num;
  LoanTerm : Z
}.

Record CalculatedValues : Type := {
  monthlyPayment : num;
  totalInterest : num;
  downPaymentPercentage : num
}.

Local Open Scope Z_scope.
Local Open Scope num_scope.

Definition calculatedValues (bank : BankProps) : CalculatedValues :=
  let InterestRate := InterestRate bank in
  let MaximumLoan := MaximumLoan bank in
  let MinimumDownPayment := MinimumDownPayment bank in
  let LoanTerm := LoanTerm bank in
  let monthlyPayment :=
    (MaximumLoan - MinimumDownPayment) *
    (InterestRate / 100 / 12) *
    Math_pow (1 + InterestRate / 100 / 12) (LoanTerm * 12) /
    (Math_pow (1 + InterestRate / 100 / 12) (LoanTerm * 12) - 1) in
  let totalInterest :=
    (monthlyPayment * LoanTerm * 12) - (MaximumLoan - MinimumDownPayment) in
  let downPaymentPercentage := (MinimumDownPayment / MaximumLoan) * 100 in
  {| monthlyPayment := Math_round monthlyPayment;
     totalInterest := Math_round totalInterest;
     downPaymentPercentage := Math_round downPaymentPercentage |}.







(** A loan of 120000 without interest over 10 years. *)
Definition interestFreeOffer : BankProps :=
  {| InterestRate := of_Z 0;
     MaximumLoan := of_Z 120000;
     MinimumDownPayment := of_Z 0;
     LoanTerm := 10 |}.

End MemoizedBankCard.

(** ** Exceptions and promises *)

Module Control.

(** A computation that may throw [new Error(message)]. *)
Definition Exn (A : Type) : Type := (string + A)%type.

Definition throw {A : Type} (message : string) : Exn A := inl message.
Definition ret {A : Type} (a : A) : Exn A := inr a.

Definition bind {A B : Type} (c : Exn A) (k : A -> Exn B) : Exn B :=
  match c with
  | inl message => inl message
  | inr a => k a
  end.

(** [if (c) throw new Error(message)] *)
Definition throw_if (c : bool) (message : string) : Exn unit :=
  if c then throw message else ret tt.

(** [try { body } catch (error) { handler(error.message) }] *)
Definition try_catch {A : Type} (body : Exn A) (handler : string -> Exn A) : Exn A :=
  match body with
  | inl message => handler message
  | inr a => inr a
  end.

(** The settled state of a promise. *)
Inductive Promise (A : Type) : Type :=
| Resolved (value : A)
| Rejected (reason : string).

Arguments Resolved {A} value.
Arguments Rejected {A} reason.

End Control.

Import Control.

Notation "x <- c ;; k" := (bind c (fun x => k))
  (at level 61, c at next level, right associativity).
Notation "c ;;; k" := (bind c (fun _ => k))
  (at level 61, right associativity).

(** ** Strings: the [String.prototype] methods the file utilities call *)

Module JSString.

Local Open Scope string_scope.
Local Open Scope char_scope.

(** Tab, line feed, vertical tab, form feed, carriage return and space: the
    white space of an 8-bit text. *)
Definition is_whitespace (c : ascii) : bool :=
  let n := nat_of_ascii c in
  ((9 <=? n) && (n <=? 13) || (n =? 32))%nat.

Definition is_empty (s : string) : bool :=
  match s with
  | EmptyString => true
  | String _ _ => false
  end.

Fixpoint trimStart (s : string) : string :=
  match s with
  | EmptyString => EmptyString
  | String c rest => if is_whitespace c then trimStart rest else s
  end.

Fixpoint trimEnd (s : string) : string :=
  match s with
  | EmptyString => EmptyString
  | String c rest =>
      let rest' := trimEnd rest in
      if is_whitespace c && is_empty rest' then EmptyString else String c rest'
  end.

Definition trim (s : string) : string := trimEnd (trimStart s).

(** [s.split(sep)] for a one-character separator. *)
Fixpoint split (sep : ascii) (s : string) : list string :=
  match s with
  | EmptyString => [EmptyString]
  | String c rest =>
      if Ascii.eqb c sep then EmptyString :: split sep rest
      else match split sep rest with
           | first :: others => String c first :: others
           | [] => [String c EmptyString]
           end
  end.

(** [parts.join(sep)] on an array of strings. *)
Fixpoint join (sep : string) (parts : list string) : string :=
  match parts with
  | [] => EmptyString
  | [p] => p
  | p :: rest => (p ++ sep ++ join sep rest)%string
  end.

(** The double quote and the line feed. *)
Definition quote : ascii := "034".
Definition LF : ascii := "010".

(** [s.replace(/^"|"$/g, '')]: one double quote is dropped at the start and
    one at the end of what remains. *)
Definition dropLeadingQuote (s : string) : string :=
  match s with
  | String c rest => if Ascii.eqb c quote then rest else s
  | EmptyString => s
  end.

Fixpoint dropTrailingQuote (s : string) : string :=
  match s with
  | EmptyString => EmptyString
  | String c rest =>
      if Ascii.eqb c quote && is_empty rest then EmptyString
      else String c (dropTrailingQuote rest)
  end.

Definition unquote (s : string) : string := dropTrailingQuote (dropLeadingQuote s).

(** How often the character occurs in the string. *)
Fixpoint occurrences (c : ascii) (s : string) : nat :=
  match s with
  | EmptyString => O
  | String c' rest =>
      if Ascii.eqb c' c then S (occurrences c rest) else occurrences c rest
  end.

(** [p] is a prefix of [s]: the rest of [s]. *)
Fixpoint strip_prefix (p s : string) : option string :=
  match p, s with
  | EmptyString, _ => Some s
  | String a p', String b s' => if Ascii.eqb a b then strip_prefix p' s' else None
  | String _ _, EmptyString => None
  end.

(** A number in a template literal, [`${n}`]. *)
Definition string_of_nat (n : nat) : string :=
  NilEmpty.string_of_uint (Nat.to_uint n).

End JSString.

Import JSString.

(** ** Numbers and text: [Number::toString], [parseFloat], [parseInt], [Number] *)

Module NumberText.

Local Open Scope string_scope.
Local Open Scope Z_scope.

(** The value of [c] as a digit of the given radix. *)
Definition digit_value (radix : Z) (c : ascii) : option Z :=
  let n := Z.of_nat (nat_of_ascii c) in
  let d :=
    if (48 <=? n) && (n <=? 57) then Some (n - 48)
    else if (97 <=? n) && (n <=? 102) then Some (n - 87)
    else if (65 <=? n) && (n <=? 70) then Some (n - 55)
    else None in
  match d with
  | Some v => if v <? radix then Some v else None
  | None => None
  end.

(** The longest run of digits at the start of [s]: its value, its length and
    what follows it. *)
Fixpoint read_digits (radix acc : Z) (count : nat) (s : string) : Z * nat * string :=
  match s with
  | EmptyString => (acc, count, s)
  | String c rest =>
      match digit_value radix c with
      | Some d => read_digits radix (acc * radix + d) (S count) rest
      | None => (acc, count, s)
      end
  end.

(** An optional sign: whether it is a minus, and the rest. *)
Definition read_sign (s : string) : bool * string :=
  match s with
  | String "-" rest => (true, rest)
  | String "+" rest => (false, rest)
  | _ => (false, s)
  end.

(** An optional exponent part [e], sign, digits; without digits nothing is consumed. *)
Definition read_exponent (s : string) : Z * string :=
  match s with
  | String c rest =>
      if (Ascii.eqb c "e" || Ascii.eqb c "E")%bool then
        let (negative, rest1) := read_sign rest in
        let '(v, n, rest2) := read_digits 10 0 0 rest1 in
        match n with
        | O => (0, s)
        | S _ => (if negative then - v else v, rest2)
        end
      else (0, s)
  | EmptyString => (0, s)
  end.

(** The longest prefix of [s] that is a [StrDecimalLiteral]
    (sign, [Infinity] or digits, fraction, exponent): its value and the rest. *)
Definition read_StrDecimalLiteral (s : string) : option (num * string) :=
  let (negative, s1) := read_sign s in
  match strip_prefix "Infinity" s1 with
  | Some rest => Some (if negative then NInf else PInf, rest)
  | None =>
      let '(ip, ni, s2) := read_digits 10 0 0 s1 in
      let '(mantissa, nf, s3) :=
        match s2 with
        | String "." rest => read_digits 10 ip 0 rest
        | _ => (ip, O, s2)
        end in
      match ni, nf with
      | O, O => None
      | _, _ =>
          let (e, s4) := read_exponent s3 in
          let m := if negative then - mantissa else mantissa in
          Some (Fin (inject_Z m * (10 # 1) ^ (e - Z.of_nat nf)), s4)
      end
  end.

(** [parseFloat] on a string. *)
Definition parseFloat_string (s : string) : num :=
  match read_StrDecimalLiteral (trimStart s) with
  | Some (v, _) => v
  | None => NaN
  end.

(** [parseInt] on a string, no radix given. *)
Definition parseInt_string (s : string) : num :=
  let (negative, s1) := read_sign (trimStart s) in
  let (radix, s2) :=
    match s1 with
    | String "0" (String x rest) =>
        if (Ascii.eqb x "x" || Ascii.eqb x "X")%bool then (16, rest) else (10, s1)
    | _ => (10, s1)
    end in
  let '(v, n, _) := read_digits radix 0 0 s2 in
  match n with
  | O => NaN
  | S _ => of_Z (if negative then - v else v)
  end.

(** A string that is digits of the radix throughout. *)
Definition read_all_digits (radix : Z) (s : string) : num :=
  match read_digits radix 0 0 s with
  | (v, S _, EmptyString) => of_Z v
  | _ => NaN
  end.

(** [Number(s)]: the whole trimmed string must be a numeric literal; the
    empty string is 0. *)
Definition StringToNumber (s : string) : num :=
  let t := trim s in
  let decimal :=
    match read_StrDecimalLiteral t with
    | Some (v, EmptyString) => v
    | _ => NaN
    end in
  match t with
  | EmptyString => of_Z 0
  | String "0" (String x rest) =>
      if (Ascii.eqb x "x" || Ascii.eqb x "X")%bool then read_all_digits 16 rest
      else if (Ascii.eqb x "o" || Ascii.eqb x "O")%bool then read_all_digits 8 rest
      else if (Ascii.eqb x "b" || Ascii.eqb x "B")%bool then read_all_digits 2 rest
      else decimal
  | _ => decimal
  end.

(** The digits of the fraction [r / d] (with [0 <= r < d]), at most [fuel]. *)
Fixpoint fraction_digits (fuel : nat) (r d : Z) : string :=
  match fuel with
  | O => EmptyString
  | S fuel' =>
      if r =? 0 then EmptyString
      else (NilEmpty.string_of_uint (N.to_uint (Z.to_N (10 * r / d)%Z))
            ++ fraction_digits fuel' (10 * r mod d)%Z d)%string
  end.

(** [Number::toString] in positional notation: sign, integer part and, when
    the number is not whole, a point and up to 20 fractional digits.  The
    exponent notation of magnitudes outside [1e-6, 1e21) is not modelled. *)
Definition Number_toString (x : num) : string :=
  match x with
  | NaN => "NaN"
  | PInf => "Infinity"
  | NInf => "-Infinity"
  | Fin q =>
      let a := Z.abs (Qnum q) in
      let d := Zpos (Qden q) in
      ((if (Qnum q <? 0)%Z then "-" else EmptyString)
       ++ NilEmpty.string_of_uint (N.to_uint (Z.to_N (a / d)%Z))
       ++ (if (a mod d =? 0)%Z then EmptyString
           else "." ++ fraction_digits 20 (a mod d)%Z d))%string
  end.

End NumberText.

Import NumberText.

(** ** Values: what [JSON.parse] yields and what the importer does to it *)

Module JSValue.

Local Open Scope string_scope.

#[warnings="-register-all"]
Inductive value : Type :=
| JUndefined
| JNull
| JBool (b : bool)
| JNum (x : num)
| JStr (s : string)
| JArr (elements : list value)
| JObj (properties : list (string * value)).

Fixpoint lookup (key : string) (properties : list (string * value)) : value :=
  match properties with
  | [] => JUndefined
  | (k, v) :: rest => if String.eqb k key then v else lookup key rest
  end.

(** [v[key]] for a property name that is neither an index nor built in:
    reading a property of [null] or [undefined] throws a TypeError; on a
    primitive or an array the property does not exist. *)
Definition getProp (v : value) (key : string) : Exn value :=
  match v with
  | JUndefined =>
      throw ("Cannot read properties of undefined (reading '" ++ key ++ "')")
  | JNull =>
      throw ("Cannot read properties of null (reading '" ++ key ++ "')")
  | JObj properties => ret (lookup key properties)
  | _ => ret JUndefined
  end.

(** Truthiness, as [!v] and [if (v)] see it. *)
Definition ToBoolean (v : value) : bool :=
  match v with
  | JUndefined | JNull => false
  | JBool b => b
  | JNum x => negb (num_falsy x)
  | JStr s => negb (is_empty s)
  | JArr _ | JObj _ => true
  end.

Definition typeof (v : value) : string :=
  match v with
  | JUndefined => "undefined"
  | JNull | JArr _ | JObj _ => "object"
  | JBool _ => "boolean"
  | JNum _ => "number"
  | JStr _ => "string"
  end.

Definition isArray (v : value) : bool :=
  match v with
  | JArr _ => true
  | _ => false
  end.

(** [String(v)]; an array joins its elements with commas, [null] and
    [undefined] elements giving the empty string. *)
Fixpoint ToString (v : value) : string :=
  match v with
  | JUndefined => "undefined"
  | JNull => "null"
  | JBool true => "true"
  | JBool false => "false"
  | JNum x => Number_toString x
  | JStr s => s
  | JArr elements =>
      join ","
        (map (fun e => match e with
                       | JUndefined | JNull => EmptyString
                       | _ => ToString e
                       end) elements)
  | JObj _ => "[object Object]"
  end.

Definition ToNumber (v : value) : num :=
  match v with
  | JUndefined => NaN
  | JNull => of_Z 0
  | JBool true => of_Z 1
  | JBool false => of_Z 0
  | JNum x => x
  | JStr s => StringToNumber s
  | JArr _ | JObj _ => StringToNumber (ToString v)
  end.

(** The global [isNaN(v)]. *)
Definition isNaN (v : value) : bool := num_isNaN (ToNumber v).

(** The global [parseFloat(v)].  The argument is converted to a string and
    the string is read; the string of a number reads back as that number
    (for [NaN] and the infinities too). *)
Definition parseFloat (v : value) : num :=
  match v with
  | JNum x => x
  | _ => parseFloat_string (ToString v)
  end.

(** The global [parseInt(v)].  The string of a finite number, in positional
    notation, starts with its integer part: the result is the number
    truncated towards 0.  [Infinity] and [NaN] have no digits. *)
Definition parseInt (v : value) : num :=
  match v with
  | JNum (Fin q) => of_Z (Z.quot (Qnum q) (Zpos (Qden q)))
  | JNum _ => NaN
  | _ => parseInt_string (ToString v)
  end.

(** The text of a JSON file, up to layout: the value it denotes, or text
    that [JSON.parse] rejects with a SyntaxError. *)
Inductive JSONText : Type :=
| JSONDocument (v : value)
| JSONMalformed (syntaxError : string).

Definition JSON_parse (text : JSONText) : Exn value :=
  match text with
  | JSONDocument v => ret v
  | JSONMalformed syntaxError => throw syntaxError
  end.


End JSValue.

Import JSValue.

(** ** File utilities: src/utils/file-utils.js *)

Module FileUtils.

Local Open Scope string_scope.

Record Bank : Type := {
  BankName : string;
  InterestRate : num;
  MaximumLoan : num;
  MinimumDownPayment : num;
  LoanTerm : num
}.

(** A [File] handed to an importer: its MIME type, its name and what
    [FileReader.readAsText] delivers ([None] when the read fails). *)
Record File (Content : Type) : Type := {
  type : string;
  name : string;
  result : option Content
}.

(** What an export hands to the browser: the blob and the download name. *)
Record Download (Content : Type) : Type := {
  blob : Content;
  blob_type : string;
  download : string
}.




Definition headers : list string :=
  ["Bank Name"; "Interest Rate (%)"; "Maximum Loan ($)";
   "Minimum Down Payment ($)"; "Loan Term (years)"].

Definition csvRow (bank : Bank) : string :=
  join "," [ String quote bank.(BankName) ++ String quote EmptyString;
             Number_toString bank.(InterestRate);
             Number_toString bank.(MaximumLoan);
             Number_toString bank.(MinimumDownPayment);
             Number_toString bank.(LoanTerm) ].

(** [exportBanksToCSV]. *)
Definition exportBanksToCSV (banks : list Bank) (filename : string)
  : Exn (Download string) :=
  try_catch
    (throw_if (length banks =? 0)%nat "No banks data to export" ;;;
     let csvRows := join "," headers :: map csvRow banks in
     let csvContent := join (String LF EmptyString) csvRows in
     ret {| blob := csvContent;
            blob_type := "text/csv;charset=utf-8";
            download := filename |})
    (fun _ => throw "Failed to export banks data").

(** The callback of [banks.map] in [importBanksFromJSON]. *)
Definition validateBank (bank : value) (index : nat) : Exn Bank :=
  let label := "Bank " ++ string_of_nat (index + 1) in
  bankName <- getProp bank "BankName" ;;
  throw_if (negb (ToBoolean bankName)
            || negb (String.eqb (typeof bankName) "string"))
           (label ++ ": Invalid or missing BankName") ;;;
  interestRate <- getProp bank "InterestRate" ;;
  throw_if (negb (ToBoolean interestRate) || isNaN interestRate)
           (label ++ ": Invalid or missing InterestRate") ;;;
  maximumLoan <- getProp bank "MaximumLoan" ;;
  throw_if (negb (ToBoolean maximumLoan) || isNaN maximumLoan)
           (label ++ ": Invalid or missing MaximumLoan") ;;;
  minimumDownPayment <- getProp bank "MinimumDownPayment" ;;
  throw_if (negb (ToBoolean minimumDownPayment) || isNaN minimumDownPayment)
           (label ++ ": Invalid or missing MinimumDownPayment") ;;;
  loanTerm <- getProp bank "LoanTerm" ;;
  throw_if (negb (ToBoolean loanTerm) || isNaN loanTerm)
           (label ++ ": Invalid or missing LoanTerm") ;;;
  ret {| BankName := trim (ToString bankName);
         InterestRate := parseFloat interestRate;
         MaximumLoan := parseFloat maximumLoan;
         MinimumDownPayment := parseFloat minimumDownPayment;
         LoanTerm := parseInt loanTerm |}.

(** [array.map(callback)] with a callback that may throw: elements are
    visited in order from [index], the first exception ends the traversal. *)
Fixpoint mapWithIndex {A B : Type} (callback : A -> nat -> Exn B)
    (index : nat) (array : list A) : Exn (list B) :=
  match array with
  | [] => ret []
  | a :: rest =>
      b <- callback a index ;;
      bs <- mapWithIndex callback (S index) rest ;;
      ret (b :: bs)
  end.

(** The body of [reader.onload] in [importBanksFromJSON]. *)
Definition parseBanksJSON (content : JSONText) : Exn (list Bank) :=
  banks <- JSON_parse content ;;
  match banks with
  | JArr elements => mapWithIndex validateBank 0 elements
  | _ => throw "Invalid JSON format: expected array of banks"
  end.

(** [importBanksFromJSON(file)]: the promise once it has settled. *)
Definition importBanksFromJSON (file : option (File JSONText))
  : Promise (list Bank) :=
  match file with
  | None => Rejected "Please select a valid JSON file"
  | Some f =>
      if negb (String.eqb f.(type) "application/json")
      then Rejected "Please select a valid JSON file"
      else
        match f.(result) with
        | None => Rejected "Failed to read file"
        | Some content =>
            match parseBanksJSON content with
            | inr validatedBanks => Resolved validatedBanks
            | inl message => Rejected ("Failed to parse JSON file: " ++ message)
            end
        end
  end.

(** One pass of the row loop in [importBanksFromCSV]: row [lines[i]]. *)
Definition parseRow (line : string) (i : nat) : Exn Bank :=
  let values := map (fun v => unquote (trim v)) (split "," line) in
  let label := "Row " ++ string_of_nat (i + 1) in
  throw_if (negb (length values =? length headers)%nat)
           (label ++ ": Invalid number of columns") ;;;
  let bank := {| BankName := nth 0 values EmptyString;
                 InterestRate := parseFloat_string (nth 1 values EmptyString);
                 MaximumLoan := parseFloat_string (nth 2 values EmptyString);
                 MinimumDownPayment := parseFloat_string (nth 3 values EmptyString);
                 LoanTerm := parseInt_string (nth 4 values EmptyString) |} in
  throw_if (is_empty bank.(BankName))
           (label ++ ": Invalid or missing Bank Name") ;;;
  throw_if (num_isNaN bank.(InterestRate) || lt bank.(InterestRate) (of_Z 0))
           (label ++ ": Invalid Interest Rate") ;;;
  throw_if (num_isNaN bank.(MaximumLoan) || lt bank.(MaximumLoan) (of_Z 0))
           (label ++ ": Invalid Maximum Loan") ;;;
  throw_if (num_isNaN bank.(MinimumDownPayment)
            || lt bank.(MinimumDownPayment) (of_Z 0))
           (label ++ ": Invalid Minimum Down Payment") ;;;
  throw_if (num_isNaN bank.(LoanTerm) || lt bank.(LoanTerm) (of_Z 1))
           (label ++ ": Invalid Loan Term") ;;;
  ret bank.

(** The row loop, [for (let i = ...; i < lines.length; i++)], over the lines
    from index [i] on; [banks] is the array pushed to. *)
Fixpoint parseRows (rows : list string) (i : nat) (banks : list Bank)
  : Exn (list Bank) :=
  match rows with
  | [] => ret banks
  | line :: rest =>
      bank <- parseRow line i ;;
      parseRows rest (S i) (banks ++ [bank])
  end.

(** [content.split('\n').filter(line => line.trim())] *)
Definition nonBlankLines (content : string) : list string :=
  filter (fun line => negb (is_empty (trim line)))
         (split LF content).

(** The body of [reader.onload] in [importBanksFromCSV]. *)
Definition parseBanksCSV (content : string) : Exn (list Bank) :=
  let lines := nonBlankLines content in
  throw_if (length lines <? 2)%nat
           "CSV file must contain at least header and one data row" ;;;
  let headerCells := map trim (split "," (nth 0 lines EmptyString)) in
  throw_if (negb (length headerCells =? length headers)%nat)
           "Invalid CSV format: incorrect number of columns" ;;;
  parseRows (tl lines) 1 [].

(** [importBanksFromCSV(file)]: the promise once it has settled. *)
Definition importBanksFromCSV (file : option (File string))
  : Promise (list Bank) :=
  match file with
  | None => Rejected "Please select a valid CSV file"
  | Some f =>
      if negb (String.eqb f.(type) "text/csv")
      then Rejected "Please select a valid CSV file"
      else
        match f.(result) with
        | None => Rejected "Failed to read file"
        | Some content =>
            match parseBanksCSV content with
            | inr banks => Resolved banks
            | inl message => Rejected ("Failed to parse CSV file: " ++ message)
            end
        end
  end.

(** The file a browser offers back after a download was saved. *)
Definition savedFile {Content : Type} (mime : string) (d : Download Content)
  : File Content :=
  {| type := mime; name := d.(download); result := Some d.(blob) |}.

(** The cells of a data row, as the row loop reads them. *)
Definition cells (line : string) : list string :=
  map (fun v => unquote (trim v)) (split "," line).

(** The record a data row stands for. *)
Definition rowBank (line : string) : Bank :=
  let values := cells line in
  {| BankName := nth 0 values EmptyString;
     InterestRate := parseFloat_string (nth 1 values EmptyString);
     MaximumLoan := parseFloat_string (nth 2 values EmptyString);
     MinimumDownPayment := parseFloat_string (nth 3 values EmptyString);
     LoanTerm := parseInt_string (nth 4 values EmptyString) |}.

(** A numeric field is numeric and at least [minimum]. *)
Definition numericInRange (minimum : Z) (x : num) : bool :=
  negb (num_isNaN x) && le (of_Z minimum) x.

(** What can be wrong with a data row, in the order the row is checked. *)
Inductive RowDefect : Type :=
| WrongColumnCount
| MissingBankName
| BadInterestRate
| BadMaximumLoan
| BadMinimumDownPayment
| BadLoanTerm.

Definition defectMessage (defect : RowDefect) : string :=
  match defect with
  | WrongColumnCount => "Invalid number of columns"
  | MissingBankName => "Invalid or missing Bank Name"
  | BadInterestRate => "Invalid Interest Rate"
  | BadMaximumLoan => "Invalid Maximum Loan"
  | BadMinimumDownPayment => "Invalid Minimum Down Payment"
  | BadLoanTerm => "Invalid Loan Term"
  end.

Definition numericDefect (bank : Bank) : option RowDefect :=
  if negb (numericInRange 0 bank.(InterestRate)) then Some BadInterestRate
  else if negb (numericInRange 0 bank.(MaximumLoan)) then Some BadMaximumLoan
  else if negb (numericInRange 0 bank.(MinimumDownPayment))
       then Some BadMinimumDownPayment
  else if negb (numericInRange 1 bank.(LoanTerm)) then Some BadLoanTerm
  else None.

Definition rowDefect (line : string) : option RowDefect :=
  if negb (length (cells line) =? 5)%nat then Some WrongColumnCount
  else if is_empty (rowBank line).(BankName) then Some MissingBankName
  else numericDefect (rowBank line).

(** The message a row error carries: the row number counts the header as
    row 1 and skips blank lines. *)
Definition rowError (rowNumber : nat) (defect : RowDefect) : string :=
  "Row " ++ string_of_nat rowNumber ++ ": " ++ defectMessage defect.


Definition reimportCSV (banks : list Bank) (filename : string)
  : Promise (list Bank) :=
  match exportBanksToCSV banks filename with
  | inr d => importBanksFromCSV (Some (savedFile "text/csv" d))
  | inl message => Rejected message
  end.





(** Sample data. *)
Definition testBank1 : Bank :=
  {| BankName := "Test Bank 1"; InterestRate := Fin 3.5;
     MaximumLoan := of_Z 500000; MinimumDownPayment := of_Z 50000;
     LoanTerm := of_Z 30 |}.

Definition testBank2 : Bank :=
  {| BankName := "Test Bank 2"; InterestRate := Fin 4.2;
     MaximumLoan := of_Z 750000; MinimumDownPayment := of_Z 75000;
     LoanTerm := of_Z 25 |}.


(** A valid offer at a rate of 0%. *)
Definition zeroRateBank : Bank :=
  {| BankName := "Zero Rate Bank"; InterestRate := of_Z 0;
     MaximumLoan := of_Z 120000; MinimumDownPayment := of_Z 12000;
     LoanTerm := of_Z 10 |}.

Definition jsonFile (content : JSONText) : File JSONText :=
  {| type := "application/json"; name := "banks.json"; result := Some content |}.

Definition csvFile (content : string) : File string :=
  {| type := "text/csv"; name := "banks.csv"; result := Some content |}.

(** [[{"BankName": "Zero Rate Bank", "InterestRate": 0, "MaximumLoan": 120000,
      "MinimumDownPayment": 12000, "LoanTerm": 10}]] *)
Definition zeroRateDocument : JSONText :=
  JSONDocument (JArr [JObj [ ("BankName", JStr "Zero Rate Bank");
                             ("InterestRate", JNum (of_Z 0));
                             ("MaximumLoan", JNum (of_Z 120000));
                             ("MinimumDownPayment", JNum (of_Z 12000));
                             ("LoanTerm", JNum (of_Z 10)) ]]).

(** The same record as a CSV file. *)
Definition zeroRateCSV : string :=
  join (String LF EmptyString)
    [ join "," headers; "Zero Rate Bank,0,120000,12000,10" ].



(** A bank whose name holds a comma. *)
Definition commaNameBank : Bank :=
  {| BankName := "Smith, Jones and Co"; InterestRate := Fin 4.5;
     MaximumLoan := of_Z 500000; MinimumDownPayment := of_Z 50000;
     LoanTerm := of_Z 30 |}.

(** A bank whose name holds commas and a line feed. *)
Definition twoLineNameBank : Bank :=
  {| BankName := "A,1,2,3,4" ++ String LF "B"; InterestRate := of_Z 5;
     MaximumLoan := of_Z 6; MinimumDownPayment := of_Z 7;
     LoanTerm := of_Z 8 |}.

(** A record whose rate is the boolean [true]. *)
Definition booleanRateDocument : JSONText :=
  JSONDocument (JArr [JObj [ ("BankName", JStr "Flag Bank");
                             ("InterestRate", JBool true);
                             ("MaximumLoan", JNum (of_Z 120000));
                             ("MinimumDownPayment", JNum (of_Z 12000));
                             ("LoanTerm", JNum (of_Z 10)) ]]).

End FileUtils.


(** ** The bank store: redux/banks *)

Module Banks.

Local Open Scope string_scope.

(** A bank as the store holds it. *)
Record Bank : Type := {
  id : string;
  BankName : string;
  InterestRate : num;
  MaximumLoan : num;
  MinimumDownPayment : num;
  LoanTerm : num
}.

Record State : Type := {
  items : list Bank;
  loading : bool;
  error : option string
}.

(** Actions by their [type]; [otherAction] is any action the reducer has no
    case for. *)
Inductive Action : Type :=
| fetchBanksPending
| fetchBanksFulfilled (banks : list Bank)
| fetchBanksRejected (error : string)
| addBankFulfilled (bank : Bank)
| deleteBankFulfilled (id : string)
| otherAction (type : string).

(** The state the reducer starts from, as its tests observe it. *)
Definition initialState : State :=
  {| items := []; loading := false; error := None |}.

(** Modelled from the spec: the add and delete transitions of the store,
    whose reducer cases are not among the sources ("appended to on add,
    filtered on delete", "synchronous local mutation independent of the
    loading flag"). *)
Definition addBank (state : State) (bank : Bank) : State :=
  {| items := state.(items) ++ [bank];
     loading := state.(loading);
     error := state.(error) |}.

Definition deleteBank (state : State) (bankId : string) : State :=
  {| items := filter (fun bank => negb (String.eqb bank.(id) bankId)) state.(items);
     loading := state.(loading);
     error := state.(error) |}.

(** The reducer: the three fetch cases and the default case as written, the
    add and delete cases through the transitions above. *)
Definition banksReducer (state : State) (action : Action) : State :=
  match action with
  | fetchBanksPending =>
      {| items := state.(items); loading := true; error := None |}
  | fetchBanksFulfilled payload =>
      {| items := payload; loading := false; error := state.(error) |}
  | fetchBanksRejected payload =>
      {| items := state.(items); loading := false; error := Some payload |}
  | addBankFulfilled bank => addBank state bank
  | deleteBankFulfilled bankId => deleteBank state bankId
  | otherAction _ => state
  end.

(** A run of the store: the actions dispatched one after the other. *)
Definition dispatchAll (state : State) (actions : list Action) : State :=
  fold_left banksReducer actions state.

(** The banks of the reducer's tests. *)
Definition newBank : Bank :=
  {| id := "1"; BankName := "New Bank"; InterestRate := Fin 4.5;
     MaximumLoan := of_Z 500000; MinimumDownPayment := of_Z 50000;
     LoanTerm := of_Z 30 |}.

Definition fetchedBank : Bank :=
  {| id := "2"; BankName := "Fetched Bank"; InterestRate := Fin 3.8;
     MaximumLoan := of_Z 750000; MinimumDownPayment := of_Z 75000;
     LoanTerm := of_Z 25 |}.

Definition getAllBanks (state : State) : list Bank := state.(items).
Definition getLoading (state : State) : bool := state.(loading).
Definition getError (state : State) : option string := state.(error).

End Banks.

(** ** The "add bank" form *)

Module BankCard.

Local Open Scope string_scope.

Inductive SubmitError : Type :=
| DuplicateName.

Definition names (collection : list Banks.Bank) : list string :=
  map Banks.BankName collection.

Definition nameTaken (collection : list Banks.Bank) (name : string) : bool :=
  existsb (fun bank => String.eqb bank.(Banks.BankName) name) collection.

(** Modelled from the spec: the duplicate-name rule of the form's submit
    handler, whose component (components/BankCard/index.jsx) is not among the
    sources: "fails [duplicate] if [name] exactly matches an existing record's
    name", and the add is then not dispatched; the other field rules of the
    form are not part of this model. *)
Definition submitBank (state : Banks.State) (candidate : Banks.Bank)
  : Banks.State * option SubmitError :=
  if nameTaken state.(Banks.items) candidate.(Banks.BankName)
  then (state, Some DuplicateName)
  else (Banks.banksReducer state (Banks.addBankFulfilled candidate), None).

(** The store and the candidate of the form's duplicate-name test. *)
Definition existingBank : Banks.Bank :=
  {| Banks.id := "1"; Banks.BankName := "Existing Bank";
     Banks.InterestRate := Fin 4.5; Banks.MaximumLoan := of_Z 500000;
     Banks.MinimumDownPayment := of_Z 50000; Banks.LoanTerm := of_Z 30 |}.

Definition storeWithExistingBank : Banks.State :=
  {| Banks.items := [existingBank]; Banks.loading := false; Banks.error := None |}.

Definition sameNameCandidate : Banks.Bank :=
  {| Banks.id := EmptyString; Banks.BankName := "Existing Bank";
     Banks.InterestRate := Fin 4.2; Banks.MaximumLoan := of_Z 400000;
     Banks.MinimumDownPayment := of_Z 40000; Banks.LoanTerm := of_Z 25 |}.

End BankCard.

(* ================================================================== *)
(** * Part II: properties                                              *)
(* ================================================================== *)

(** ** Numbers *)

Section NumberFacts.

Local Open Scope num_scope.


Lemma num_eq_sym (x y : num) : num_eq x y -> num_eq y x.
Proof. destruct x, y; simpl; auto with qarith. Qed.

Lemma num_eq_trans (x y z : num) : num_eq x y -> num_eq y z -> num_eq x z.
Proof.
  destruct x, y, z; unfold num_eq; try tauto.
  apply Qeq_trans.
Qed.




Lemma Qnum_mult (a b : Q) : Qnum (a * b) = (Qnum a * Qnum b)%Z.
Proof. reflexivity. Qed.

Lemma scale_inf_zero (positive : bool) (q : Q) :
  Qnum q = 0%Z -> scale_inf positive q = NaN.
Proof. unfold scale_inf. now intros ->. Qed.

(** 0/0 *)
Lemma div_zero_zero (a b : Q) :
  Qnum a = 0%Z -> Qnum b = 0%Z -> Fin a / Fin b = NaN.
Proof. intros Ha Hb. unfold div. rewrite Hb. now apply scale_inf_zero. Qed.

(** A power of a fraction [d/d] is again of that shape. *)
Lemma Qpower_positive_unit (x : Q) (p : positive) :
  Qnum x = Zpos (Qden x) ->
  Qnum (Qpower_positive x p) = Zpos (Qden (Qpower_positive x p)).
Proof.
  intros H. unfold Qpower_positive.
  induction p; simpl.
  - rewrite !IHp, H. reflexivity.
  - rewrite !IHp. reflexivity.
  - exact H.
Qed.

End NumberFacts.

(** ** Strings *)

Section StringFacts.

Local Open Scope string_scope.

Lemma occurrences_app (c : ascii) (s t : string) :
  occurrences c (s ++ t) = (occurrences c s + occurrences c t)%nat.
Proof.
  induction s as [|a s IH]; cbn; [reflexivity|].
  destruct (Ascii.eqb a c); cbn; now rewrite IH.
Qed.

Lemma split_not_nil (sep : ascii) (s : string) : split sep s <> [].
Proof.
  destruct s as [|a s]; cbn; [discriminate|].
  destruct (Ascii.eqb a sep); [discriminate|].
  destruct (split sep s); discriminate.
Qed.

(** A string splits into one part more than it has separators. *)
Lemma split_length (sep : ascii) (s : string) :
  length (split sep s) = S (occurrences sep s).
Proof.
  induction s as [|a s IH]; cbn; [reflexivity|].
  destruct (Ascii.eqb a sep); cbn; [now rewrite IH|].
  destruct (split sep s) eqn:E; cbn in *; [discriminate IH | exact IH].
Qed.

Lemma split_without_separator (sep : ascii) (s : string) :
  occurrences sep s = O -> split sep s = [s].
Proof.
  induction s as [|a s IH]; cbn; [reflexivity|].
  destruct (Ascii.eqb a sep); [discriminate|].
  intros H. now rewrite (IH H).
Qed.

(** Splitting at the first separator. *)
Lemma split_app (sep : ascii) (s t : string) :
  occurrences sep s = O ->
  split sep (s ++ String sep t) = s :: split sep t.
Proof.
  induction s as [|a s IH]; cbn.
  - now rewrite Ascii.eqb_refl.
  - destruct (Ascii.eqb a sep); [discriminate|].
    intros H. now rewrite (IH H).
Qed.

Lemma join_cons (sep p : string) (q : string) (rest : list string) :
  join sep (p :: q :: rest) = p ++ sep ++ join sep (q :: rest).
Proof. reflexivity. Qed.

(** The lines of joined lines: parts without a line feed come back as they
    were, whatever follows them. *)
Lemma split_join (sep : ascii) (parts others : list string) :
  Forall (fun p => occurrences sep p = O) parts ->
  parts <> [] ->
  split sep (join (String sep EmptyString) (parts ++ others)%list)
  = (parts ++ match others with
              | [] => []
              | _ => split sep (join (String sep EmptyString) others)
              end)%list.
Proof.
  induction 1 as [|p parts Hp Hparts IH]; intros Hne; [congruence|].
  destruct parts as [|q parts].
  - destruct others as [|o others]; cbn [app].
    + cbn [join]. now rewrite split_without_separator.
    + rewrite join_cons. cbn [append]. now rewrite split_app.
  - cbn [app]. rewrite join_cons. cbn [append].
    rewrite split_app by assumption. f_equal.
    apply IH. discriminate.
Qed.

Lemma trimStart_not_whitespace (c : ascii) (s : string) :
  is_whitespace c = false -> trimStart (String c s) = String c s.
Proof. cbn. now intros ->. Qed.

(** A string that starts with a visible character is not blank. *)
Lemma not_blank (c : ascii) (s : string) :
  is_whitespace c = false -> is_empty (trim (String c s)) = false.
Proof.
  intros H. unfold trim. rewrite trimStart_not_whitespace by assumption.
  cbn. now rewrite H.
Qed.

End StringFacts.

(** ** The bank card's figures *)

Section Amortization.

Import MemoizedBankCard.
Local Open Scope num_scope.

(** At a zero rate the closed form is 0/0 whatever the amounts and the term:
    the payment is [NaN]. *)
Lemma zero_rate_payment_is_NaN (maximumLoan minimumDownPayment : Q) (term : Z) :
  monthlyPayment
    (calculatedValues {| InterestRate := of_Z 0;
                         MaximumLoan := Fin maximumLoan;
                         MinimumDownPayment := Fin minimumDownPayment;
                         LoanTerm := term |}) = NaN.
Proof.
  set (one := (inject_Z 1 + inject_Z 0 / inject_Z 100 / inject_Z 12)%Q).
  assert (Hunit : Qnum one = Zpos (Qden one)) by reflexivity.
  assert (Hzero : forall x, Qnum (x * (inject_Z 0 / inject_Z 100 / inject_Z 12))%Q = 0%Z).
  { intros x. simpl. lia. }
  unfold calculatedValues; cbn [monthlyPayment InterestRate MaximumLoan MinimumDownPayment LoanTerm].
  change (of_Z 1 + of_Z 0 / of_Z 100 / of_Z 12) with (Fin one).
  change ((Fin maximumLoan - Fin minimumDownPayment) * (of_Z 0 / of_Z 100 / of_Z 12))
    with (Fin ((maximumLoan + - minimumDownPayment) * (inject_Z 0 / inject_Z 100 / inject_Z 12))).
  destruct (term * 12)%Z as [|p|p]; unfold Math_pow.
  - cbn [mul sub add neg of_Z].
    rewrite div_zero_zero; [reflexivity | | reflexivity].
    rewrite Qnum_mult, Hzero. reflexivity.
  - cbn [mul sub add neg of_Z].
    rewrite div_zero_zero; [reflexivity | | ].
    + rewrite Qnum_mult, Hzero. reflexivity.
    + cbn [Qnum Qplus Qopp inject_Z Qpower Qden]. rewrite Qpower_positive_unit by exact Hunit. lia.
  - rewrite Hunit. cbn [mul sub add neg of_Z].
    rewrite div_zero_zero; [reflexivity | | ].
    + rewrite Qnum_mult, Hzero. reflexivity.
    + pose proof (Qpower_positive_unit one p Hunit) as H.
      cbn [Qpower]. unfold Qinv. rewrite H. cbn [Qnum Qplus Qopp inject_Z Qden]. lia.
Qed.

(** C1 (the code departs from the claim).  The claim: at a zero rate the
    payment is principal / n, 1000 for 120000 over 10 years, the division
    being special-cased.  The calculation has no such case: for that offer the
    monthly payment and the total interest are [NaN]. *)
Theorem zero_rate_payment_undefined :
  calculatedValues interestFreeOffer
  = {| monthlyPayment := NaN; totalInterest := NaN; downPaymentPercentage := of_Z 0 |}
  /\ monthlyPayment (calculatedValues interestFreeOffer) <> of_Z 1000.
Proof.
  split.
  - vm_compute. reflexivity.
  - pose proof (zero_rate_payment_is_NaN (inject_Z 120000) (inject_Z 0) 10) as E.
    change (monthlyPayment (calculatedValues interestFreeOffer) = NaN) in E.
    rewrite E. discriminate.
Qed.



End Amortization.

(** ** The bank store *)

Section Store.

Import Banks.

Lemma fetch_fulfilled_items (state : State) (payload : list Bank) :
  items (banksReducer state (fetchBanksFulfilled payload)) = payload.
Proof. reflexivity. Qed.

(** Optimistic adds and deletes leave the loading flag alone. *)
Lemma optimistic_keeps_loading (state : State) (action : Action) :
  (exists bank, action = addBankFulfilled bank)
  \/ (exists bankId, action = deleteBankFulfilled bankId) ->
  loading (banksReducer state action) = loading state.
Proof. intros [[bank ->] | [bankId ->]]; reflexivity. Qed.

(** The test "should handle concurrent operations correctly": the bank added
    while the fetch was pending is gone once the fetch has resolved. *)
Example concurrent_add_is_replaced :
  let pending := banksReducer initialState fetchBanksPending in
  let added := banksReducer pending (addBankFulfilled newBank) in
  let settled := banksReducer added (fetchBanksFulfilled [fetchedBank]) in
  items added = [newBank] /\ loading added = true
  /\ items settled = [fetchedBank] /\ loading settled = false
  /\ ~ In newBank (items settled).
Proof.
  cbn. repeat split.
  intros [H | []]. discriminate H.
Qed.

(** C7.  Whatever the state, and whatever was dispatched between the start
    of a fetch and its completion, the fulfilled fetch leaves exactly its
    payload as the collection (and the store no longer loading): a bank added
    in between survives only as a member of the payload. *)
Theorem fetch_fulfilled_replaces_collection
    (state : State) (inBetween : list Action) (payload : list Bank) :
  items (banksReducer state (fetchBanksFulfilled payload)) = payload
  /\ let inFlight := dispatchAll (banksReducer state fetchBanksPending) inBetween in
     let settled := banksReducer inFlight (fetchBanksFulfilled payload) in
     items settled = payload /\ loading settled = false.
Proof.
  split; [apply fetch_fulfilled_items|].
  cbv zeta. split; [apply fetch_fulfilled_items | reflexivity].
Qed.

(** C8.  A rejected fetch records the error and clears the loading flag; the
    collection is the one the state had. *)
Theorem fetch_rejected_keeps_collection (state : State) (message : string) :
  let failed := banksReducer state (fetchBanksRejected message) in
  error failed = Some message
  /\ loading failed = false
  /\ items failed = items state.
Proof. cbn. auto. Qed.

End Store.

(** ** The "add bank" form *)

Section DuplicateNames.

Import Banks BankCard.

Lemma nameTaken_In (collection : list Bank) (name : string) :
  nameTaken collection name = true <-> In name (names collection).
Proof.
  unfold nameTaken, names. rewrite existsb_exists, in_map_iff.
  split; intros [bank [H1 H2]]; exists bank.
  - apply String.eqb_eq in H2. auto.
  - rewrite H1. split; [assumption | apply String.eqb_refl].
Qed.

Lemma submitBank_taken (state : State) (candidate : Bank) :
  nameTaken (items state) (BankName candidate) = true ->
  submitBank state candidate = (state, Some DuplicateName).
Proof. unfold submitBank. now intros ->. Qed.

Lemma submitBank_free (state : State) (candidate : Bank) :
  nameTaken (items state) (BankName candidate) = false ->
  submitBank state candidate = (addBank state candidate, None).
Proof. unfold submitBank. now intros ->. Qed.

(** C9.  A candidate whose name is the name of a bank of the collection is
    rejected as a duplicate and the store is left as it was, its collection
    of the same length; and a collection of pairwise distinct names has
    pairwise distinct names after every submission. *)
Theorem duplicate_name_rejected (state : State) (candidate : Bank) :
  (In (BankName candidate) (names (items state)) ->
     submitBank state candidate = (state, Some DuplicateName)
     /\ length (items (fst (submitBank state candidate))) = length (items state))
  /\ (NoDup (names (items state)) ->
      NoDup (names (items (fst (submitBank state candidate))))).
Proof.
  split.
  - intros Hin. apply nameTaken_In in Hin.
    rewrite (submitBank_taken _ _ Hin). auto.
  - intros Hnodup.
    destruct (nameTaken (items state) (BankName candidate)) eqn:E.
    + now rewrite (submitBank_taken _ _ E).
    + rewrite (submitBank_free _ _ E). cbn. unfold names.
      rewrite map_app. cbn.
      apply NoDup_app; [exact Hnodup | repeat constructor; intros [] | ].
      intros n Hn [<- | []].
      apply nameTaken_In in Hn. congruence.
Qed.

Lemma duplicate_name_rejected_witness :
  In (BankName sameNameCandidate) (names (items storeWithExistingBank))
  /\ NoDup (names (items storeWithExistingBank))
  /\ submitBank storeWithExistingBank sameNameCandidate
     = (storeWithExistingBank, Some DuplicateName)
  /\ length (items (fst (submitBank storeWithExistingBank sameNameCandidate))) = 1%nat
  /\ NoDup (names (items (fst (submitBank storeWithExistingBank sameNameCandidate)))).
Proof.
  assert (Hin : In (BankName sameNameCandidate) (names (items storeWithExistingBank)))
    by (left; reflexivity).
  assert (Hnodup : NoDup (names (items storeWithExistingBank)))
    by (repeat constructor; intros []).
  destruct (duplicate_name_rejected storeWithExistingBank sameNameCandidate)
    as [Hdup Hinv].
  destruct (Hdup Hin) as [Hrej Hlen].
  exact (conj Hin (conj Hnodup (conj Hrej (conj Hlen (Hinv Hnodup))))).
Defined.

End DuplicateNames.

(** ** JSON export and import *)

Section JSONFiles.

Import FileUtils.
Local Open Scope string_scope.

(** [banks.map] returns as many records as the array has elements, or
    throws: there is no partial result. *)
Lemma mapWithIndex_length {A B : Type} (callback : A -> nat -> Exn B)
    (array : list A) (index : nat) (results : list B) :
  mapWithIndex callback index array = inr results ->
  length results = length array.
Proof.
  revert index results.
  induction array as [|a rest IH]; intros index results; cbn.
  - intros [= <-]. reflexivity.
  - destruct (callback a index) as [message|b]; cbn; [discriminate|].
    destruct (mapWithIndex callback (S index) rest) as [message|bs] eqn:E; cbn;
      [discriminate|].
    intros [= <-]. cbn. f_equal. now apply (IH (S index)).
Qed.

Lemma importBanksFromJSON_all_or_nothing (elements : list value) (banks : list Bank) :
  importBanksFromJSON (Some (jsonFile (JSONDocument (JArr elements)))) = Resolved banks ->
  length banks = length elements.
Proof.
  cbn.
  destruct (mapWithIndex validateBank 0 elements) as [message|bs] eqn:E;
    [discriminate|].
  intros [= <-]. now apply mapWithIndex_length in E.
Qed.





(** C3 (the code departs from the claim).  The claim: the import fails with
    a field error exactly when a required numeric field is missing or not
    numeric (or the name is missing or not text).  The importer tests each
    numeric field for truthiness first: a record whose rate is the number 0
    is refused as "Invalid or missing InterestRate", a record the CSV
    importer accepts; and a rate that is the boolean [true] passes and is
    stored as [NaN]. *)
Theorem json_import_rejects_zero_rate :
  importBanksFromJSON (Some (jsonFile zeroRateDocument))
  = Rejected "Failed to parse JSON file: Bank 1: Invalid or missing InterestRate"
  /\ importBanksFromCSV (Some (csvFile zeroRateCSV)) = Resolved [zeroRateBank]
  /\ importBanksFromJSON (Some (jsonFile booleanRateDocument))
     = Resolved [ {| BankName := "Flag Bank"; InterestRate := NaN;
                     MaximumLoan := of_Z 120000;
                     MinimumDownPayment := of_Z 12000;
                     LoanTerm := of_Z 10 |} ].
Proof. repeat split; vm_compute; reflexivity. Qed.




End JSONFiles.

(** ** CSV export and import *)

Section CSVFiles.

Import FileUtils.
Local Open Scope string_scope.

(** *** Numbers are written without line feeds *)

Lemma string_of_uint_one_line (u : Decimal.uint) :
  occurrences LF (NilEmpty.string_of_uint u) = O.
Proof. induction u; cbn; assumption || reflexivity. Qed.

Lemma fraction_digits_one_line (fuel : nat) (r d : Z) :
  occurrences LF (fraction_digits fuel r d) = O.
Proof.
  revert r. induction fuel as [|fuel IH]; intros r; cbn; [reflexivity|].
  destruct (r =? 0)%Z; [reflexivity|].
  now rewrite occurrences_app, string_of_uint_one_line, IH.
Qed.

Lemma Number_toString_one_line (x : num) :
  occurrences LF (Number_toString x) = O.
Proof.
  destruct x as [q| | |]; try reflexivity.
  unfold Number_toString. generalize 20%nat; intros fuel.
  rewrite !occurrences_app, string_of_uint_one_line.
  destruct (Qnum q <? 0)%Z, (Z.abs (Qnum q) mod Zpos (Qden q) =? 0)%Z;
    rewrite ?occurrences_app, ?fraction_digits_one_line; reflexivity.
Qed.

(** *** The exported rows *)

Lemma csvRow_starts_with_quote (bank : Bank) :
  exists rest, csvRow bank = String quote rest.
Proof. unfold csvRow. cbn [join append]. eexists. reflexivity. Qed.

Lemma csvRow_line_feeds (bank : Bank) :
  occurrences LF (csvRow bank) = occurrences LF bank.(BankName).
Proof.
  unfold csvRow. cbn [join].
  rewrite !occurrences_app, !Number_toString_one_line.
  cbn. lia.
Qed.

Lemma csvRow_commas (bank : Bank) :
  (4 + occurrences "," bank.(BankName) <= occurrences "," (csvRow bank))%nat.
Proof.
  unfold csvRow. cbn [join].
  rewrite !occurrences_app.
  cbn. lia.
Qed.

Lemma csvRow_not_blank (bank : Bank) :
  is_empty (trim (csvRow bank)) = false.
Proof.
  destruct (csvRow_starts_with_quote bank) as [rest ->].
  now apply not_blank.
Qed.

(** *** One data row *)

Lemma range_check (minimum : Z) (x : num) :
  num_isNaN x || lt x (of_Z minimum) = negb (numericInRange minimum x).
Proof. destruct x; reflexivity. Qed.

(** A row either shows its first defect, under its row number, or yields
    its record. *)
Lemma parseRow_rowDefect (line : string) (i : nat) :
  parseRow line i
  = match rowDefect line with
    | Some defect => throw (rowError (i + 1) defect)
    | None => ret (rowBank line)
    end.
Proof.
  unfold parseRow, rowDefect, numericDefect.
  fold (cells line). fold (rowBank line).
  change (length headers) with 5%nat.
  rewrite !range_check.
  destruct (length (cells line) =? 5)%nat; [|reflexivity].
  destruct (is_empty (BankName (rowBank line))); [reflexivity|].
  destruct (numericInRange 0 (InterestRate (rowBank line))); [|reflexivity].
  destruct (numericInRange 0 (MaximumLoan (rowBank line))); [|reflexivity].
  destruct (numericInRange 0 (MinimumDownPayment (rowBank line))); [|reflexivity].
  destruct (numericInRange 1 (LoanTerm (rowBank line))); reflexivity.
Qed.

(** *** The row loop *)

Lemma parseRows_good (good rest : list string) (i : nat) (banks : list Bank) :
  Forall (fun line => rowDefect line = None) good ->
  parseRows (good ++ rest) i banks
  = parseRows rest (i + length good) (banks ++ map rowBank good).
Proof.
  intros H. revert i banks.
  induction H as [|line good Hline _ IH]; intros i banks; cbn [app length map].
  - now rewrite Nat.add_0_r, app_nil_r.
  - cbn [parseRows]. rewrite parseRow_rowDefect, Hline. cbn [bind ret].
    rewrite IH, <- app_assoc. cbn [app]. f_equal. lia.
Qed.

Lemma parseRows_bad (bad : string) (rest : list string) (i : nat)
    (banks : list Bank) (defect : RowDefect) :
  rowDefect bad = Some defect ->
  parseRows (bad :: rest) i banks = throw (rowError (i + 1) defect).
Proof. intros H. cbn [parseRows]. now rewrite parseRow_rowDefect, H. Qed.


(** *** The whole file *)

Lemma importBanksFromCSV_read (file : File string) (content : string) :
  file.(type) = "text/csv" -> file.(result) = Some content ->
  importBanksFromCSV (Some file)
  = match parseBanksCSV content with
    | inr banks => Resolved banks
    | inl message => Rejected ("Failed to parse CSV file: " ++ message)
    end.
Proof. unfold importBanksFromCSV. now intros -> ->. Qed.


Lemma parseBanksCSV_rows (content : string) :
  (2 <= length (nonBlankLines content))%nat ->
  parseBanksCSV content
  = if (length (split "," (nth 0 (nonBlankLines content) EmptyString)) =? 5)%nat
    then parseRows (tl (nonBlankLines content)) 1 []
    else throw "Invalid CSV format: incorrect number of columns".
Proof.
  intros H. unfold parseBanksCSV.
  assert (E : (length (nonBlankLines content) <? 2)%nat = false)
    by (apply Nat.ltb_ge; exact H).
  rewrite E. cbn [throw_if bind ret].
  rewrite length_map. change (length headers) with 5%nat.
  now destruct (length (split "," (nth 0 (nonBlankLines content) EmptyString)) =? 5)%nat.
Qed.

(** The first defective row decides the error, under its row number. *)
Lemma parseBanksCSV_first_defect (content header bad : string)
    (good rest : list string) (defect : RowDefect) :
  nonBlankLines content = header :: (good ++ bad :: rest)%list ->
  length (split "," header) = 5%nat ->
  Forall (fun line => rowDefect line = None) good ->
  rowDefect bad = Some defect ->
  parseBanksCSV content = throw (rowError (length good + 2) defect).
Proof.
  intros Hlines Hheader Hgood Hbad.
  rewrite parseBanksCSV_rows; rewrite Hlines.
  - cbn [nth tl]. rewrite Hheader. cbn [Nat.eqb].
    rewrite parseRows_good by exact Hgood.
    erewrite parseRows_bad by exact Hbad.
    do 2 f_equal. lia.
  - cbn [length]. rewrite length_app. cbn [length]. lia.
Qed.

(** *** Export *)

Lemma exportBanksToCSV_content (banks : list Bank) (filename : string) :
  banks <> [] ->
  exportBanksToCSV banks filename
  = ret {| blob := join (String LF EmptyString)
                        (join "," headers :: map csvRow banks);
           blob_type := "text/csv;charset=utf-8";
           download := filename |}.
Proof. destruct banks; [congruence | reflexivity]. Qed.

(** The export fails for the empty collection and for no other. *)
Lemma exportBanksToCSV_fails_iff_empty (banks : list Bank) (filename : string) :
  (exists message, exportBanksToCSV banks filename = throw message)
  <-> banks = [].
Proof.
  split.
  - intros [message H]. destruct banks; [reflexivity | discriminate H].
  - intros ->. eexists. reflexivity.
Qed.

(** The first line of an exported file is the header. *)
Lemma exported_first_line (bank : Bank) (banks : list Bank) :
  hd EmptyString
     (split LF (join (String LF EmptyString)
                     (join "," headers :: map csvRow (bank :: banks))))
  = "Bank Name,Interest Rate (%),Maximum Loan ($),Minimum Down Payment ($),Loan Term (years)".
Proof.
  change (join "," headers :: map csvRow (bank :: banks))
    with ([join "," headers] ++ map csvRow (bank :: banks))%list.
  rewrite split_join; [reflexivity | repeat constructor | discriminate].
Qed.

(** C6 (the code departs from the claim).  The claim: an empty collection
    makes the export fail with the empty-collection error.  The guard does
    throw "No banks data to export", but inside the function's own [try]: the
    [catch] replaces it, and what the caller gets is the general "Failed to
    export banks data". *)
Theorem csv_export_empty_collection_error (filename : string) :
  exportBanksToCSV [] filename = throw "Failed to export banks data"
  /\ exportBanksToCSV [] filename <> throw "No banks data to export".
Proof. split; [reflexivity | discriminate]. Qed.

(** *** Import *)




(** *** Export, then import *)

Lemma filter_all {A : Type} (f : A -> bool) (l : list A) :
  Forall (fun a => f a = true) l -> filter f l = l.
Proof.
  induction 1 as [|a l Ha _ IH]; cbn; [reflexivity|].
  now rewrite Ha, IH.
Qed.

(** The non-blank lines of an exported file, as far as the names hold no
    line feed: the header and one row per bank. *)
Lemma exported_lines (before : list Bank) (bank : Bank) (after : list Bank) :
  Forall (fun b => occurrences LF b.(BankName) = O) (before ++ [bank]) ->
  exists rest,
    nonBlankLines (join (String LF EmptyString)
                        (join "," headers :: map csvRow (before ++ bank :: after)))
    = join "," headers :: (map csvRow before ++ csvRow bank :: rest)%list.
Proof.
  intros Hnames.
  set (parts := (join "," headers :: map csvRow (before ++ [bank]))%list).
  assert (Hlist : (join "," headers :: map csvRow (before ++ bank :: after)
                   = parts ++ map csvRow after)%list).
  { unfold parts. cbn [app]. f_equal.
    rewrite <- map_app, <- app_assoc. reflexivity. }
  assert (Hone : Forall (fun p => occurrences LF p = O) parts).
  { unfold parts. constructor; [reflexivity|].
    apply Forall_map. eapply Forall_impl; [|exact Hnames].
    intros b Hb. cbv beta. now rewrite csvRow_line_feeds. }
  assert (Hvisible :
    Forall (fun line => negb (is_empty (trim line)) = true) parts).
  { unfold parts. constructor; [reflexivity|].
    apply Forall_map, Forall_forall. intros b _.
    now rewrite csvRow_not_blank. }
  unfold nonBlankLines.
  rewrite Hlist, split_join by (exact Hone || discriminate).
  rewrite filter_app, (filter_all _ Hvisible).
  unfold parts. rewrite map_app. cbn [map app]. rewrite <- app_assoc. cbn [app].
  eexists. reflexivity.
Qed.

(** A row whose name holds a comma has too many columns. *)
Lemma comma_name_column_count (bank : Bank) :
  (0 < occurrences "," bank.(BankName))%nat ->
  rowDefect (csvRow bank) = Some WrongColumnCount.
Proof.
  intros Hcomma. unfold rowDefect, cells.
  rewrite length_map, split_length.
  pose proof (csvRow_commas bank) as Hcount.
  destruct (Nat.eqb_spec (S (occurrences "," (csvRow bank))) 5) as [E|_];
    [lia | reflexivity].
Qed.

(** C10, as stated, fails: a name that holds commas and a line feed is
    exported as two lines of five columns each, and the import succeeds, with
    two banks. *)
Lemma csv_round_trip_two_line_name :
  ~ (forall bank : Bank,
       (0 < occurrences "," bank.(BankName))%nat ->
       exists row,
         reimportCSV [bank] "banks-data.csv"
         = Rejected ("Failed to parse CSV file: " ++ rowError row WrongColumnCount)).
Proof.
  intros H.
  destruct (H twoLineNameBank) as [row Hrow]; [vm_compute; lia|].
  assert (E : reimportCSV [twoLineNameBank] "banks-data.csv"
              = Resolved [ {| BankName := "A"; InterestRate := of_Z 1;
                              MaximumLoan := of_Z 2; MinimumDownPayment := of_Z 3;
                              LoanTerm := of_Z 4 |};
                           {| BankName := "B"; InterestRate := of_Z 5;
                              MaximumLoan := of_Z 6; MinimumDownPayment := of_Z 7;
                              LoanTerm := of_Z 8 |} ])
    by (vm_compute; reflexivity).
  rewrite E in Hrow. discriminate Hrow.
Qed.

(** C10, amended.  In a collection, take the first bank whose name holds a
    comma, the names up to it holding no line feed and the banks before it
    exporting to rows the importer accepts.  Importing the exported file
    fails with the column-count error of that bank's row: the exporter quotes
    the name, the importer splits the row at every comma. *)
Theorem csv_round_trip_breaks_on_comma
    (before : list Bank) (bank : Bank) (after : list Bank) (filename : string) :
  Forall (fun b => occurrences LF b.(BankName) = O) (before ++ [bank]) ->
  Forall (fun b => rowDefect (csvRow b) = None) before ->
  (0 < occurrences "," bank.(BankName))%nat ->
  reimportCSV (before ++ bank :: after) filename
  = Rejected ("Failed to parse CSV file: "
              ++ rowError (length before + 2) WrongColumnCount).
Proof.
  intros Hnames Hbefore Hcomma.
  unfold reimportCSV.
  rewrite exportBanksToCSV_content by (destruct before; discriminate).
  unfold ret, savedFile. cbn [blob download].
  erewrite importBanksFromCSV_read; [|reflexivity|reflexivity].
  destruct (exported_lines before bank after Hnames) as [rest Hlines].
  erewrite parseBanksCSV_first_defect; [|exact Hlines| | |].
  - unfold throw. now rewrite length_map.
  - reflexivity.
  - now apply Forall_map.
  - now apply comma_name_column_count.
Qed.

Lemma csv_round_trip_breaks_on_comma_witness :
  Forall (fun b => occurrences LF b.(BankName) = O) ([testBank1] ++ [commaNameBank])
  /\ Forall (fun b => rowDefect (csvRow b) = None) [testBank1]
  /\ (0 < occurrences "," commaNameBank.(BankName))%nat
  /\ reimportCSV ([testBank1] ++ commaNameBank :: [testBank2]) "banks-data.csv"
     = Rejected "Failed to parse CSV file: Row 3: Invalid number of columns".
Proof.
  assert (Hnames : Forall (fun b => occurrences LF b.(BankName) = O)
                          ([testBank1] ++ [commaNameBank]))
    by (repeat (constructor; [vm_compute; reflexivity|]); constructor).
  assert (Hbefore : Forall (fun b => rowDefect (csvRow b) = None) [testBank1])
    by (constructor; [vm_compute; reflexivity | constructor]).
  assert (Hcomma : (0 < occurrences "," commaNameBank.(BankName))%nat)
    by (vm_compute; lia).
  exact (conj Hnames (conj Hbefore (conj Hcomma
    (@csv_round_trip_breaks_on_comma [testBank1] commaNameBank [testBank2]
       "banks-data.csv" Hnames Hbefore Hcomma)))).
Defined.

End CSVFiles.

